(** * GraphQL resolver layer of overfast-api: a shallow embedding

    Models of [app/graphql/context.py], [app/graphql/types.py] and
    [app/graphql/schema.py]: the per-request [GraphQLContext] and its
    [merge_cache_ttl], the enum crosswalk ([_convert_role], [_convert_locale],
    [_enum_to_hero_key], [_hero_key_to_enum], [_role_to_enum]), the controller
    bridge [_run_controller], the memoizing [HeroNode._load_details], the key
    filter [_filter_by_keys] and the root field [Query.heroes]. *)

From Stdlib Require Import ZArith List String Ascii Bool Lia Permutation.
Import ListNotations.
Open Scope Z_scope.

(* ------------------------------------------------------------------ *)
(** ** Python's [int(str)] and [str(int)] *)

Module PyInt.

(** Characters removed by [str.strip()] before [int()] parses (ASCII part). *)
Definition is_space (c : ascii) : bool :=
  match nat_of_ascii c with
  | 32%nat | 9%nat | 10%nat | 11%nat | 12%nat | 13%nat => true
  | _ => false
  end.

Definition is_digit (c : ascii) : bool :=
  ((48 <=? nat_of_ascii c)%nat && (nat_of_ascii c <=? 57)%nat)%bool.

Definition digit_val (c : ascii) : Z := Z.of_nat (nat_of_ascii c) - 48.

Fixpoint drop_spaces (l : list ascii) : list ascii :=
  match l with
  | c :: r => if is_space c then drop_spaces r else l
  | [] => []
  end.

Definition strip (l : list ascii) : list ascii :=
  rev (drop_spaces (rev (drop_spaces l))).

(** Digits after the first one; a single [_] may separate two digits. *)
Fixpoint parse_digits (l : list ascii) (acc : Z) : option Z :=
  match l with
  | [] => Some acc
  | c :: r =>
      if is_digit c then parse_digits r (acc * 10 + digit_val c)
      else if Ascii.eqb c "_" then
        match r with
        | d :: r' => if is_digit d then parse_digits r' (acc * 10 + digit_val d)
                     else None
        | [] => None
        end
      else None
  end.

Definition parse_unsigned (l : list ascii) : option Z :=
  match l with
  | c :: r => if is_digit c then parse_digits r (digit_val c) else None
  | [] => None
  end.

(** [int(s)] for a string [s] in base 10: [None] stands for the [ValueError]
    that [merge_cache_ttl] catches. *)
Definition py_int (s : string) : option Z :=
  match strip (list_ascii_of_string s) with
  | "-"%char :: r => option_map Z.opp (parse_unsigned r)
  | "+"%char :: r => parse_unsigned r
  | l => parse_unsigned l
  end.

Fixpoint digits_of_pos (fuel : nat) (n : Z) (acc : list ascii) : list ascii :=
  match fuel with
  | O => acc
  | S f =>
      let acc' := ascii_of_nat (Z.to_nat (n mod 10) + 48) :: acc in
      if n <? 10 then acc' else digits_of_pos f (n / 10) acc'
  end.

(** [str(n)] for an integer [n]. *)
Definition py_str (n : Z) : string :=
  let ds := digits_of_pos (S (Z.to_nat (Z.log2_up (Z.abs n + 1)))) (Z.abs n) [] in
  string_of_list_ascii (if n <? 0 then "-"%char :: ds else ds).

End PyInt.

Import PyInt.

(* ------------------------------------------------------------------ *)
(** ** [GraphQLContext] (app/graphql/context.py) *)

Module Context.

(** The context's [cache_ttl] field and the value of the outbound response's
    header [settings.cache_ttl_header] ([None] when the header is not set). *)
Record GraphQLContext := mkContext {
  cache_ttl : option Z;
  ttl_header : option string
}.

(** [build_context]: a fresh context around the outbound response, whose TTL
    header holds [h0]. *)
Definition build_context (h0 : option string) : GraphQLContext :=
  mkContext None h0.

(** [GraphQLContext.merge_cache_ttl]. *)
Definition merge_cache_ttl (ctx : GraphQLContext) (ttl_header : option string)
  : GraphQLContext :=
  match ttl_header with
  | None => ctx
  | Some s =>
      match py_int s with
      | None => ctx
      | Some ttl_value =>
          let replace :=
            match cache_ttl ctx with
            | None => true
            | Some c => ttl_value <? c
            end in
          if replace then mkContext (Some ttl_value) (Some (py_str ttl_value))
          else ctx
      end
  end.

(** A sequence of calls on one context. *)
Definition merge_all (ctx : GraphQLContext) (vs : list (option string))
  : GraphQLContext :=
  fold_left merge_cache_ttl vs ctx.

(** The values of a sequence of header values that [int()] accepts. *)
Definition parsed_values (vs : list (option string)) : list Z :=
  flat_map (fun v => match v with
                     | Some s => match py_int s with Some z => [z] | None => [] end
                     | None => []
                     end) vs.

(** A context that holds [m] and has written it to the header. *)
Definition holding (m : Z) : GraphQLContext := mkContext (Some m) (Some (py_str m)).

End Context.

(* ------------------------------------------------------------------ *)
(** ** Python values, exceptions and results *)

Module Py.

(** The three enum classes. [strawberry.enum(Locale, name="Locale")] decorates
    the class and returns it, so [LocaleEnum] is [Locale], [RoleEnum] is [Role]
    and [HeroKeyEnum] is [HeroKey] (app/graphql/types.py): the wire enum and
    the domain enum are one class. *)
Inductive cls := Role | Locale | HeroKey.

Definition cls_eqb (a b : cls) : bool :=
  match a, b with
  | Role, Role | Locale, Locale | HeroKey, HeroKey => true
  | _, _ => false
  end.

(** The values the crosswalk handles: strings and enum members (a member is
    named by its class and its member name). *)
Inductive pyval :=
| VStr (s : string)
| VMem (c : cls) (name : string).

(** [==] on these values: strings by content, enum members by identity. *)
Definition py_eqb (a b : pyval) : bool :=
  match a, b with
  | VStr x, VStr y => String.eqb x y
  | VMem c x, VMem d y => cls_eqb c d && String.eqb x y
  | _, _ => false
  end.

Inductive exn :=
| ValueError
| AttributeError
| ValidationError
| DownstreamError (code : nat).

Inductive result (A : Type) :=
| Ok (a : A)
| Err (e : exn).
Arguments Ok {A} a.
Arguments Err {A} e.

Definition rbind {A B} (r : result A) (k : A -> result B) : result B :=
  match r with Ok a => k a | Err e => Err e end.

Notation "x <- r ;; k" := (rbind r (fun x => k))
  (at level 61, r at next level, right associativity).

(** A list comprehension whose element expression may raise. *)
Fixpoint map_r {A B} (f : A -> result B) (l : list A) : result (list B) :=
  match l with
  | [] => Ok []
  | x :: r => y <- f x ;; ys <- map_r f r ;; Ok (y :: ys)
  end.

(** A Python dict as its list of items in insertion order. *)
Definition dict (V : Type) := list (pyval * V).

Fixpoint dict_get {V} (d : dict V) (k : pyval) : option V :=
  match d with
  | [] => None
  | (k', v) :: r => if py_eqb k' k then Some v else dict_get r k
  end.

(** [d[k] = v]: an existing key keeps its position and takes the new value. *)
Fixpoint dict_set {V} (d : dict V) (k : pyval) (v : V) : dict V :=
  match d with
  | [] => [(k, v)]
  | (k', v') :: r => if py_eqb k' k then (k', v) :: r else (k', v') :: dict_set r k v
  end.

End Py.

Import Py.

(* ------------------------------------------------------------------ *)
(** ** The resolver layer (app/graphql/schema.py) *)

Module Schema.

Section Program.

(** The member declarations of the enum classes ([app.enums], [app.roles.enums],
    [app.heroes.enums]): each class's members as (name, value) pairs in
    declaration order. *)
Variable members : cls -> list (string * pyval).

(** Downstream payloads, the [Hero] model and pydantic validation. *)
Variable Payload : Type.
Variable Hero : Type.
Variable hero_validate : Payload -> result Hero.

(** Iterating a list payload, and [HeroShort.model_validate] on one item. *)
Record HeroShort := mkHeroShort {
  hs_key : pyval;
  hs_name : string;
  hs_portrait : string;
  hs_role : pyval
}.
Variable iter_payload : Payload -> result (list Payload).
Variable short_validate : Payload -> result HeroShort.

(** *** Python's enum machinery *)

Definition member_value (c : cls) (k : string) : option pyval :=
  option_map snd (find (fun nv => String.eqb (fst nv) k) (members c)).

(** [x.value]. *)
Definition get_value (x : pyval) : result pyval :=
  match x with
  | VMem c k => match member_value c k with Some v => Ok v | None => Err AttributeError end
  | VStr _ => Err AttributeError
  end.

Definition isinstance (x : pyval) (c : cls) : bool :=
  match x with VMem d _ => cls_eqb d c | VStr _ => false end.

(** [C(x)]: a member of [C] is returned as is; otherwise the first member whose
    value equals [x]; otherwise [ValueError]. *)
Definition enum_call (c : cls) (x : pyval) : result pyval :=
  if isinstance x c then Ok x
  else match find (fun nv => py_eqb (snd nv) x) (members c) with
       | Some (n, _) => Ok (VMem c n)
       | None => Err ValueError
       end.

(** *** Enum crosswalk *)

(** The shape of [_convert_locale], [_enum_to_hero_key] and of [_convert_role]
    on a present role: [if isinstance(x.value, C): return x.value; return C(x.value)]. *)
Definition to_domain (c : cls) (x : pyval) : result pyval :=
  v <- get_value x ;;
  if isinstance v c then Ok v else enum_call c v.

(** The shape of [_hero_key_to_enum] and [_role_to_enum]:
    [try: return C(x) except ValueError: return C(x.value)]. *)
Definition to_wire (c : cls) (x : pyval) : result pyval :=
  match enum_call c x with
  | Err ValueError => v <- get_value x ;; enum_call c v
  | r => r
  end.

Definition _convert_role (role : option pyval) : result (option pyval) :=
  match role with
  | None => Ok None
  | Some r => v <- to_domain Role r ;; Ok (Some v)
  end.

Definition _convert_locale (locale : pyval) : result pyval := to_domain Locale locale.

Definition _enum_to_hero_key (m : pyval) : result pyval := to_domain HeroKey m.

Definition _convert_keys (keys : list pyval) : result (list pyval) :=
  map_r _enum_to_hero_key keys.

Definition _hero_key_to_enum (k : pyval) : result pyval := to_wire HeroKey k.

Definition _role_to_enum (r : pyval) : result pyval := to_wire Role r.

(** *** Controller bridge *)

(** A downstream [process_request] call and its keyword arguments. *)
Inductive call :=
| ListHeroes (role : option pyval) (locale : pyval)
| GetHero (hero_key : pyval) (locale : pyval).

(** The downstream controllers: given the calls made so far and this call, the
    payload and the TTL header left on the scratch [Response()], or the error
    [process_request] raised. *)
Variable process_request : list call -> call -> result (Payload * option string).

(** What the resolvers share: the request context and the downstream calls
    made so far. *)
Record World := mkWorld {
  context : Context.GraphQLContext;
  calls : list call
}.

Definition M (A : Type) := World -> result A * World.

Definition mret {A} (a : A) : M A := fun w => (Ok a, w).

Definition mbind {A B} (m : M A) (k : A -> M B) : M B :=
  fun w => match m w with
           | (Ok a, w') => k a w'
           | (Err e, w') => (Err e, w')
           end.

Definition lift {A} (r : result A) : M A := fun w => (r, w).

Notation "x <-- m ;;; k" := (mbind m (fun x => k))
  (at level 61, m at next level, right associativity).

(** [_run_controller]: the controller writes its TTL header on a scratch
    response; only after [process_request] returns is that header merged into
    the context. *)
Definition _run_controller (c : call) : M Payload :=
  fun w =>
    let w_called := mkWorld (context w) (calls w ++ [c]) in
    match process_request (calls w) c with
    | Err e => (Err e, w_called)
    | Ok (payload, temp_header) =>
        (Ok payload,
         mkWorld (Context.merge_cache_ttl (context w) temp_header) (calls w ++ [c]))
    end.

(** *** [HeroNode] *)

Record HeroNode := mkHeroNode {
  key : pyval;
  name : string;
  portrait : string;
  role : pyval;
  _details_cache : dict Hero
}.

(** [HeroNode._load_details]. The node instance is threaded through: the
    updated node is returned with the result. A cached [Hero] is a pydantic
    model, which has no [__bool__] or [__len__], so the walrus test is true
    exactly when [get] found an entry. *)
Definition _load_details (self : HeroNode) (locale : pyval) (w : World)
  : result Hero * HeroNode * World :=
  match get_value locale with
  | Err e => (Err e, self, w)
  | Ok cache_key =>
      match dict_get (_details_cache self) cache_key with
      | Some cached => (Ok cached, self, w)
      | None =>
          let run :=
            (hk <-- lift (_enum_to_hero_key (key self)) ;;;
             loc <-- lift (_convert_locale locale) ;;;
             payload <-- _run_controller (GetHero hk loc) ;;;
             lift (hero_validate payload)) in
          match run w with
          | (Err e, w') => (Err e, self, w')
          | (Ok hero, w') =>
              (Ok hero,
               mkHeroNode (key self) (name self) (portrait self) (role self)
                          (dict_set (_details_cache self) cache_key hero),
               w')
          end
      end
  end.

(** [_make_hero_node]. *)
Definition _make_hero_node (hero_short : HeroShort) : result HeroNode :=
  k <- _hero_key_to_enum (hs_key hero_short) ;;
  r <- _role_to_enum (hs_role hero_short) ;;
  Ok (mkHeroNode k (hs_name hero_short) (hs_portrait hero_short) r []).

(** *** Key filter and the [heroes] field *)

Fixpoint filter_loop (by_key : dict HeroShort) (keys : list pyval) (filtered : list HeroShort)
  : list HeroShort :=
  match keys with
  | [] => filtered
  | k :: rest =>
      match dict_get by_key k with
      | Some hero => filter_loop by_key rest (filtered ++ [hero])
      | None => filter_loop by_key rest filtered
      end
  end.

(** [{hero.key: hero for hero in hero_shorts}]. *)
Definition build_by_key (hero_shorts : list HeroShort) : dict HeroShort :=
  fold_left (fun d hero => dict_set d (hs_key hero) hero) hero_shorts [].

(** [_filter_by_keys]. *)
Definition _filter_by_keys (hero_shorts : list HeroShort) (keys : list pyval)
  : list HeroShort :=
  match keys with
  | [] => hero_shorts
  | _ => filter_loop (build_by_key hero_shorts) keys []
  end.

(** [Query.heroes]; [keys = None] is the absent argument. *)
Definition heroes (role : option pyval) (locale : pyval) (keys : option (list pyval))
  : M (list HeroNode) :=
  r <-- lift (_convert_role role) ;;;
  loc <-- lift (_convert_locale locale) ;;;
  payload <-- _run_controller (ListHeroes r loc) ;;;
  items <-- lift (iter_payload payload) ;;;
  hero_shorts <-- lift (map_r short_validate items) ;;;
  hero_keys <-- lift (match keys with
                      | None | Some [] => Ok []
                      | Some ks => _convert_keys ks
                      end) ;;;
  let filtered := _filter_by_keys hero_shorts hero_keys in
  lift (map_r _make_hero_node filtered).

(** *** Well-formed enum declarations *)

Fixpoint nodupb {A} (eqb : A -> A -> bool) (l : list A) : bool :=
  match l with
  | [] => true
  | x :: r => negb (existsb (eqb x) r) && nodupb eqb r
  end.

Definition is_str (v : pyval) : bool := match v with VStr _ => true | VMem _ _ => false end.

(** What Python guarantees of a [StrEnum] class body: member names are
    distinct, canonical members have distinct values (a repeated value makes
    an alias, not a member), and every value is a string. *)
Definition wf_members : bool :=
  forallb (fun c => nodupb String.eqb (map fst (members c))
                    && nodupb py_eqb (map snd (members c))
                    && forallb (fun nv => is_str (snd nv)) (members c))
          [Role; Locale; HeroKey].

(** [x] is a declared member of class [c]. *)
Definition is_member (c : cls) (x : pyval) : bool :=
  match x with
  | VMem d k => cls_eqb d c && existsb (fun nv => String.eqb (fst nv) k) (members c)
  | VStr _ => false
  end.

(** Some member of [c] has value [v]. *)
Definition has_value (c : cls) (v : pyval) : bool :=
  existsb (fun nv => py_eqb (snd nv) v) (members c).

End Program.

End Schema.

(* ------------------------------------------------------------------ *)
(** ** Sample enum declarations

    Some members of overfast-api's [Role], [Locale] and [HeroKey] enums, used
    to instantiate the theorems at concrete inputs. *)

Definition sample_members (c : cls) : list (string * pyval) :=
  match c with
  | Role => [("TANK", VStr "tank"); ("DAMAGE", VStr "damage"); ("SUPPORT", VStr "support")]
  | Locale => [("GERMAN", VStr "de-de"); ("ENGLISH_US", VStr "en-us")]
  | HeroKey => [("ANA", VStr "ana"); ("LUCIO", VStr "lucio"); ("SOJOURN", VStr "sojourn")]
  end%string.

(* ------------------------------------------------------------------ *)
(** ** Reference notions the filter and the [heroes] field are compared with *)

(** The last Short Entity with key [k] in downstream order. *)
Definition last_with_key (k : pyval) (hero_shorts : list Schema.HeroShort)
  : option Schema.HeroShort :=
  find (fun h => py_eqb (Schema.hs_key h) k) (rev hero_shorts).

(** A Short Entity wrapped as an Entity Node with an empty detail cache. *)
Definition node_of_short {Hero : Type} (hs : Schema.HeroShort) : Schema.HeroNode Hero :=
  Schema.mkHeroNode Hero (Schema.hs_key hs) (Schema.hs_name hs) (Schema.hs_portrait hs)
                    (Schema.hs_role hs) [].

(** Sample Short Entities. *)
Definition sample_short (k n : string) (r : string) : Schema.HeroShort :=
  Schema.mkHeroShort (VMem HeroKey k) n ("https://example.com/" ++ n)%string (VMem Role r).

Definition sample_ana : Schema.HeroShort := sample_short "ANA" "Ana" "SUPPORT".
Definition sample_lucio : Schema.HeroShort := sample_short "LUCIO" "Lucio" "SUPPORT".
Definition sample_sojourn : Schema.HeroShort := sample_short "SOJOURN" "Sojourn" "DAMAGE".

(** Sample downstream stubs, in the manner of the [AsyncMock]s of
    [tests/test_graphql.py]: a payload is a list of Short Entities, iterating
    it yields one-element payloads, and validation accepts exactly those. The
    list controller answers [shorts] with TTL 60, the detail controller
    answers [detail] with TTL 30. *)
Definition sample_iter (p : list Schema.HeroShort) : result (list (list Schema.HeroShort)) :=
  Ok (map (fun h => [h]) p).

Definition sample_validate (p : list Schema.HeroShort) : result Schema.HeroShort :=
  match p with [h] => Ok h | _ => Err ValidationError end.

Definition sample_controllers (shorts detail : list Schema.HeroShort)
  (_ : list Schema.call) (c : Schema.call) : result (list Schema.HeroShort * option string) :=
  match c with
  | Schema.ListHeroes _ _ => Ok (shorts, Some "60"%string)
  | Schema.GetHero _ _ => Ok (detail, Some "30"%string)
  end.

Definition sample_world : Schema.World := Schema.mkWorld (Context.build_context None) [].

Definition sample_node : Schema.HeroNode Schema.HeroShort :=
  Schema.mkHeroNode Schema.HeroShort (VMem HeroKey "ANA") "Ana" "https://example.com/Ana"
                    (VMem Role "SUPPORT") [].

(* ================================================================== *)
(** * Proofs *)

Module ContextFacts.
Import Context.

Lemma merge_holding (m : Z) (v : option string) :
  merge_cache_ttl (holding m) v =
  match v with
  | Some s => match py_int s with
              | Some z => holding (Z.min m z)
              | None => holding m
              end
  | None => holding m
  end.
Proof.
  destruct v as [s|]; simpl; [|reflexivity].
  destruct (py_int s) as [z|]; [|reflexivity].
  destruct (Z.ltb_spec z m).
  - unfold holding. rewrite Z.min_r by lia. reflexivity.
  - unfold holding. rewrite Z.min_l by lia. reflexivity.
Qed.

Lemma merge_all_holding (m : Z) (vs : list (option string)) :
  merge_all (holding m) vs = holding (fold_left Z.min (parsed_values vs) m).
Proof.
  revert m; induction vs as [|v vs IH]; intro m; [reflexivity|].
  unfold merge_all; simpl. fold (merge_all (merge_cache_ttl (holding m) v) vs).
  rewrite merge_holding.
  destruct v as [s|]; simpl; [|apply IH].
  destruct (py_int s) as [z|]; simpl; apply IH.
Qed.

(** Starting from a fresh context. *)
Lemma merge_all_fresh (h0 : option string) (vs : list (option string)) :
  merge_all (build_context h0) vs =
  match parsed_values vs with
  | [] => build_context h0
  | z :: zs => holding (fold_left Z.min zs z)
  end.
Proof.
  induction vs as [|v vs IH]; [reflexivity|].
  unfold merge_all; simpl.
  destruct v as [s|]; simpl; [|exact IH].
  destruct (py_int s) as [z|] eqn:Hz; simpl; [|exact IH].
  apply merge_all_holding.
Qed.

Lemma fold_min_le (zs : list Z) (m : Z) : fold_left Z.min zs m <= m.
Proof.
  revert m; induction zs as [|z zs IH]; intro m; simpl; [lia|].
  specialize (IH (Z.min m z)). lia.
Qed.

Lemma fold_min_lower (zs : list Z) (m : Z) :
  Forall (fun z => fold_left Z.min zs m <= z) (m :: zs).
Proof.
  revert m; induction zs as [|z zs IH]; intro m; simpl.
  - constructor; [lia | constructor].
  - specialize (IH (Z.min m z)). inversion IH as [|? ? H1 H2]; subst.
    constructor; [lia|]. constructor; [lia | exact H2].
Qed.

Lemma fold_min_in (zs : list Z) (m : Z) : In (fold_left Z.min zs m) (m :: zs).
Proof.
  revert m; induction zs as [|z zs IH]; intro m; simpl; [left; reflexivity|].
  destruct (IH (Z.min m z)) as [H|H];
    set (r := fold_left Z.min zs (Z.min m z)) in *; simpl.
  - destruct (Z.min_spec m z) as [[_ E]|[_ E]]; rewrite E in H; auto.
  - auto.
Qed.

Lemma merge_all_fresh_min (h0 : option string) (vs : list (option string)) :
  let ctx := merge_all (build_context h0) vs in
  match parsed_values vs with
  | [] => cache_ttl ctx = None /\ ttl_header ctx = h0
  | ps => exists m, cache_ttl ctx = Some m /\ ttl_header ctx = Some (py_str m)
                    /\ In m ps /\ Forall (fun z => m <= z) ps
  end.
Proof.
  simpl. rewrite merge_all_fresh.
  destruct (parsed_values vs) as [|z zs]; [split; reflexivity|].
  exists (fold_left Z.min zs z). repeat split.
  - apply fold_min_in.
  - apply fold_min_lower.
Qed.

End ContextFacts.

(** C1: after any sequence of [merge_cache_ttl] calls on a fresh context, the
    stored [cache_ttl] and the outbound TTL header both hold the minimum of the
    header values [int()] accepted (absent and malformed ones are skipped);
    when none was accepted, [cache_ttl] is unset and the header was never
    written (it still holds what the response had, [h0]). *)
Theorem merge_cache_ttl_true_minimum (h0 : option string) (vs : list (option string)) :
  let ctx := Context.merge_all (Context.build_context h0) vs in
  match Context.parsed_values vs with
  | [] => Context.cache_ttl ctx = None /\ Context.ttl_header ctx = h0
  | ps => exists m, Context.cache_ttl ctx = Some m
                    /\ Context.ttl_header ctx = Some (py_str m)
                    /\ In m ps /\ Forall (fun z => m <= z) ps
  end.
Proof. exact (ContextFacts.merge_all_fresh_min h0 vs). Qed.

Example merge_cache_ttl_sample :
  Context.merge_all (Context.build_context None) [Some "300"%string; None; Some "x"%string; Some " 60 "%string; Some "120"%string]
  = Context.mkContext (Some 60) (Some "60"%string).
Proof. reflexivity. Qed.

Module ContextFacts2.
Import Context.

Lemma merge_step_nonincreasing (ctx : GraphQLContext) (m : Z) (v : option string) :
  cache_ttl ctx = Some m ->
  exists m', cache_ttl (merge_cache_ttl ctx v) = Some m' /\ m' <= m.
Proof.
  intro Hm. destruct v as [s|]; simpl; [|exists m; split; [exact Hm | lia]].
  destruct (py_int s) as [z|]; [|exists m; split; [exact Hm | lia]].
  rewrite Hm. destruct (Z.ltb_spec z m).
  - exists z; split; [reflexivity | lia].
  - exists m; split; [exact Hm | lia].
Qed.

Lemma merge_all_nonincreasing (vs : list (option string)) :
  forall (ctx : GraphQLContext) (m : Z), cache_ttl ctx = Some m ->
  exists m', cache_ttl (merge_all ctx vs) = Some m' /\ m' <= m.
Proof.
  induction vs as [|v vs IH]; intros ctx m Hm.
  - exists m; split; [exact Hm | lia].
  - unfold merge_all; simpl. fold (merge_all (merge_cache_ttl ctx v) vs).
    destruct (merge_step_nonincreasing ctx m v Hm) as [m1 [H1 L1]].
    destruct (IH _ _ H1) as [m2 [H2 L2]].
    exists m2; split; [exact H2 | lia].
Qed.

Lemma fresh_cache_ttl_parsed (h0 : option string) (vs : list (option string)) :
  match cache_ttl (merge_all (build_context h0) vs) with
  | None => True
  | Some m => In m (parsed_values vs) /\ Forall (fun z => m <= z) (parsed_values vs)
  end.
Proof.
  pose proof (ContextFacts.merge_all_fresh_min h0 vs) as H. simpl in H.
  destruct (parsed_values vs) as [|z zs].
  - destruct H as [-> _]; exact I.
  - destruct H as [m [-> [_ [Hin Hlow]]]]. split; assumption.
Qed.

End ContextFacts2.

(** C5: once [cache_ttl] holds [m], a header parsing to [z >= m] leaves the
    context (field and outbound header) unchanged, one parsing to [z < m]
    replaces the stored value and the header by [z]; and over any further
    sequence of calls the stored value never increases above [m]. *)
Theorem merge_cache_ttl_monotone (ctx : Context.GraphQLContext) (m z : Z) (s : string)
  (Hm : Context.cache_ttl ctx = Some m) (Hz : py_int s = Some z) :
  (m <= z -> Context.merge_cache_ttl ctx (Some s) = ctx)
  /\ (z < m -> Context.merge_cache_ttl ctx (Some s) = Context.holding z)
  /\ (forall vs, exists m', Context.cache_ttl (Context.merge_all ctx vs) = Some m' /\ m' <= m).
Proof.
  split; [|split].
  - intro L. simpl. rewrite Hz, Hm. destruct (Z.ltb_spec z m); [lia | reflexivity].
  - intro L. simpl. rewrite Hz, Hm. destruct (Z.ltb_spec z m); [reflexivity | lia].
  - intro vs. exact (ContextFacts2.merge_all_nonincreasing vs ctx m Hm).
Qed.

Lemma merge_cache_ttl_monotone_witness :
  Context.cache_ttl (Context.holding 60) = Some 60 /\ py_int "30"%string = Some 30 /\
  Context.merge_cache_ttl (Context.holding 60) (Some "30"%string) = Context.holding 30.
Proof.
  split; [reflexivity|]. split; [reflexivity|].
  apply (merge_cache_ttl_monotone (Context.holding 60) 60 30 "30"%string);
    [reflexivity | reflexivity | lia].
Defined.

(** C10 (as the spec states it, refuted): a header value that parses to a
    negative integer is stored, so [cache_ttl] is not always unset or
    non-negative. *)
Lemma cache_ttl_negative_counterexample :
  ~ (forall (h0 : option string) (vs : list (option string)) (m : Z),
       Context.cache_ttl (Context.merge_all (Context.build_context h0) vs) = Some m -> 0 <= m).
Proof.
  intro H.
  specialize (H None [Some "-5"%string] (-5) eq_refl). lia.
Qed.

(** C10 (amended): [cache_ttl] is unset exactly when no header value was
    accepted by [int()], and otherwise holds the least accepted value; it is
    non-negative when every accepted value is, and a single header value is
    stored as [int()] returns it, negative values included. *)
Theorem cache_ttl_is_parsed_minimum (h0 : option string) (vs : list (option string)) :
  match Context.cache_ttl (Context.merge_all (Context.build_context h0) vs) with
  | None => Context.parsed_values vs = []
  | Some m => In m (Context.parsed_values vs)
              /\ Forall (fun z => m <= z) (Context.parsed_values vs)
              /\ (Forall (fun z => 0 <= z) (Context.parsed_values vs) -> 0 <= m)
  end
  /\ (forall s : string,
      Context.cache_ttl (Context.merge_cache_ttl (Context.build_context h0) (Some s)) = py_int s).
Proof.
  split.
  - pose proof (ContextFacts.merge_all_fresh_min h0 vs) as H. simpl in H.
    destruct (Context.parsed_values vs) as [|z zs] eqn:E.
    + destruct H as [-> _]. reflexivity.
    + destruct H as [m [-> [_ [Hin Hlow]]]]. split; [exact Hin|]. split; [exact Hlow|].
      intro Hnn. rewrite Forall_forall in Hnn. exact (Hnn m Hin).
  - intro s. simpl. destruct (py_int s); reflexivity.
Qed.

Module CrosswalkFacts.
Import Schema.

Lemma cls_eqb_eq (a b : cls) : cls_eqb a b = true <-> a = b.
Proof. destruct a, b; simpl; split; congruence. Qed.

Lemma py_eqb_eq (a b : pyval) : py_eqb a b = true <-> a = b.
Proof.
  destruct a as [x|c x], b as [y|d y]; simpl; try (split; congruence).
  - rewrite String.eqb_eq. split; congruence.
  - rewrite andb_true_iff, cls_eqb_eq, String.eqb_eq. split.
    + intros [-> ->]; reflexivity.
    + intro H; inversion H; auto.
Qed.

Lemma py_eqb_refl (a : pyval) : py_eqb a a = true.
Proof. apply py_eqb_eq; reflexivity. Qed.

Lemma nodupb_inj {A B} (eqb : B -> B -> bool) (eqb_refl : forall b, eqb b b = true)
  (f : A -> B) (l : list A) (a b : A) :
  nodupb eqb (map f l) = true -> In a l -> In b l -> f a = f b -> a = b.
Proof.
  induction l as [|x r IH]; simpl; [tauto|].
  rewrite andb_true_iff, negb_true_iff. intros [Hx Hr] Ha Hb Hf.
  assert (Hnot : forall y, In y r -> f y = f x -> False).
  { intros y Hy Hyx. assert (existsb (eqb (f x)) (map f r) = true) as E.
    { apply existsb_exists. exists (f y). split; [apply in_map; exact Hy|].
      rewrite Hyx. apply eqb_refl. }
    congruence. }
  destruct Ha as [<-|Ha], Hb as [<-|Hb]; auto.
  - exfalso; apply (Hnot b Hb); auto.
  - exfalso; apply (Hnot a Ha); auto.
Qed.

Lemma find_unique {A} (f : A -> bool) (l : list A) (a : A) :
  In a l -> f a = true -> (forall b, In b l -> f b = true -> b = a) ->
  find f l = Some a.
Proof.
  induction l as [|x r IH]; simpl; [tauto|].
  intros Ha Hfa Huniq.
  destruct (f x) eqn:Hfx.
  - f_equal. apply Huniq; auto.
  - destruct Ha as [->|Ha]; [congruence|].
    apply IH; auto.
Qed.

Section Decls.
Variable members : cls -> list (string * pyval).
Hypothesis Hwf : wf_members members = true.

Lemma wf_class (c : cls) :
  nodupb String.eqb (map fst (members c)) = true
  /\ nodupb py_eqb (map snd (members c)) = true
  /\ forallb (fun nv => is_str (snd nv)) (members c) = true.
Proof.
  unfold wf_members in Hwf. simpl in Hwf. rewrite !andb_true_iff in Hwf.
  destruct c; tauto.
Qed.

Lemma value_is_str (c : cls) (n : string) (v : pyval) :
  In (n, v) (members c) -> exists s, v = VStr s.
Proof.
  intro H. destruct (wf_class c) as [_ [_ Hs]].
  rewrite forallb_forall in Hs. specialize (Hs _ H). simpl in Hs.
  destruct v as [s|]; [exists s; reflexivity | discriminate].
Qed.

Lemma member_value_in (c : cls) (k : string) (v : pyval) :
  In (k, v) (members c) -> member_value members c k = Some v.
Proof.
  intro H. unfold member_value.
  rewrite (find_unique _ _ (k, v) H); [reflexivity | apply String.eqb_refl|].
  intros [k' v'] Hb Hk. simpl in Hk. apply String.eqb_eq in Hk; subst k'.
  destruct (wf_class c) as [Hn _].
  exact (nodupb_inj String.eqb String.eqb_refl fst _ _ _ Hn Hb H eq_refl).
Qed.

Lemma find_by_value (c : cls) (n : string) (v : pyval) :
  In (n, v) (members c) ->
  find (fun nv => py_eqb (snd nv) v) (members c) = Some (n, v).
Proof.
  intro H. apply find_unique; [exact H | apply py_eqb_refl|].
  intros [n' v'] Hb Hv. simpl in Hv. apply py_eqb_eq in Hv; subst v'.
  destruct (wf_class c) as [_ [Hv _]].
  exact (nodupb_inj py_eqb py_eqb_refl snd _ _ _ Hv Hb H eq_refl).
Qed.

Lemma find_none (c : cls) (v : pyval) :
  has_value members c v = false ->
  find (fun nv => py_eqb (snd nv) v) (members c) = None.
Proof.
  unfold has_value. intro H.
  destruct (find _ _) as [[n v']|] eqn:E; [|reflexivity].
  apply find_some in E as [Hin Heq].
  assert (existsb (fun nv => py_eqb (snd nv) v) (members c) = true) as T.
  { apply existsb_exists. exists (n, v'). auto. }
  congruence.
Qed.

(** A string value never equals an enum member. *)
Lemma find_member_none (c d : cls) (k : string) :
  find (fun nv => py_eqb (snd nv) (VMem d k)) (members c) = None.
Proof.
  destruct (find _ _) as [[n v]|] eqn:E; [|reflexivity].
  apply find_some in E as [Hin Heq].
  destruct (value_is_str c n v Hin) as [s ->]. discriminate.
Qed.

Lemma is_member_in (c : cls) (x : pyval) :
  is_member members c x = true -> exists k v, x = VMem c k /\ In (k, v) (members c).
Proof.
  destruct x as [s|d k]; simpl; [discriminate|].
  rewrite andb_true_iff, cls_eqb_eq. intros [-> Hex].
  apply existsb_exists in Hex as [[k' v] [Hin Hk]]. simpl in Hk.
  apply String.eqb_eq in Hk; subst k'. exists k, v. auto.
Qed.

Lemma to_domain_member (c : cls) (x : pyval) :
  is_member members c x = true -> to_domain members c x = Ok x.
Proof.
  intro Hm. destruct (is_member_in c x Hm) as [k [v [-> Hin]]].
  unfold to_domain, get_value. rewrite (member_value_in c k v Hin). simpl.
  destruct (value_is_str c k v Hin) as [s ->]. simpl.
  unfold enum_call. simpl.
  rewrite (find_by_value c k (VStr s) Hin). reflexivity.
Qed.

Lemma to_wire_member (c : cls) (x : pyval) :
  is_member members c x = true -> to_wire members c x = Ok x.
Proof.
  intro Hm. destruct (is_member_in c x Hm) as [k [v [-> Hin]]].
  unfold to_wire, enum_call. simpl.
  assert (cls_eqb c c = true) as -> by (apply cls_eqb_eq; reflexivity).
  reflexivity.
Qed.

End Decls.
End CrosswalkFacts.

(** C6: with the enum classes declared as Python allows (distinct names,
    distinct string values), every declared member round-trips through the
    crosswalk: for [Role] ([_convert_role] on a present role, [_role_to_enum])
    and [HeroKey] ([_enum_to_hero_key], [_hero_key_to_enum]) both conversions
    return the member itself, so [toWire(toDomain(x)) = x] and
    [toDomain(toWire(y)) = y]; for [Locale], whose wire class [LocaleEnum] is
    the class [Locale] itself and which has no separate [toWire],
    [_convert_locale] is the identity on members. *)
Theorem enum_crosswalk_roundtrip (members : cls -> list (string * pyval))
  (Hwf : Schema.wf_members members = true) :
  (forall x, Schema.is_member members Role x = true ->
     Schema._convert_role members (Some x) = Ok (Some x)
     /\ Schema._role_to_enum members x = Ok x
     /\ (d <- Schema.to_domain members Role x ;; Schema._role_to_enum members d) = Ok x
     /\ (w <- Schema._role_to_enum members x ;; Schema.to_domain members Role w) = Ok x)
  /\ (forall x, Schema.is_member members HeroKey x = true ->
     Schema._enum_to_hero_key members x = Ok x
     /\ Schema._hero_key_to_enum members x = Ok x
     /\ (d <- Schema._enum_to_hero_key members x ;; Schema._hero_key_to_enum members d) = Ok x
     /\ (w <- Schema._hero_key_to_enum members x ;; Schema._enum_to_hero_key members w) = Ok x)
  /\ (forall x, Schema.is_member members Locale x = true ->
     Schema._convert_locale members x = Ok x).
Proof.
  split; [|split]; intros x Hm.
  - pose proof (CrosswalkFacts.to_domain_member members Hwf Role x Hm) as D.
    pose proof (CrosswalkFacts.to_wire_member members Role x Hm) as W.
    unfold Schema._convert_role, Schema._role_to_enum.
    rewrite D, W; simpl. rewrite W, D. repeat split.
  - pose proof (CrosswalkFacts.to_domain_member members Hwf HeroKey x Hm) as D.
    pose proof (CrosswalkFacts.to_wire_member members HeroKey x Hm) as W.
    unfold Schema._enum_to_hero_key, Schema._hero_key_to_enum.
    rewrite D, W; simpl. rewrite W, D. repeat split.
  - exact (CrosswalkFacts.to_domain_member members Hwf Locale x Hm).
Qed.

Lemma enum_crosswalk_roundtrip_witness :
  Schema.wf_members sample_members = true
  /\ Schema.is_member sample_members Role (VMem Role "SUPPORT") = true
  /\ (d <- Schema.to_domain sample_members Role (VMem Role "SUPPORT") ;;
      Schema._role_to_enum sample_members d) = Ok (VMem Role "SUPPORT").
Proof.
  split; [reflexivity|]. split; [reflexivity|].
  exact (proj1 (proj2 (proj2 (proj1 (enum_crosswalk_roundtrip sample_members eq_refl)
                                (VMem Role "SUPPORT") eq_refl)))).
Defined.

(** C7: for an input [x] (an enum member) whose underlying value is [v]
    ([x.value]), with well-formed enum declarations:
    [toDomain] ([to_domain], the body of [_convert_role], [_convert_locale],
    [_enum_to_hero_key]) returns [v] unchanged when [v] is already a member of
    the target class, succeeds with the member whose value code is [v] when
    there is one, and raises [ValueError] (the spec's UnknownEnumValue) when
    [v] is neither; [toWire] ([to_wire], the body of [_role_to_enum] and
    [_hero_key_to_enum]) returns [x] unchanged when [x] is already a target
    member, returns [v] unchanged when [v] is, succeeds when [v] is a value
    code of the target class, and raises [ValueError] otherwise. *)
Theorem enum_crosswalk_conversion_cases (members : cls -> list (string * pyval))
  (Hwf : Schema.wf_members members = true) (c : cls) (x v : pyval)
  (Hv : Schema.get_value members x = Ok v) :
  (Schema.isinstance v c = true -> Schema.to_domain members c x = Ok v)
  /\ (forall n, In (n, v) (members c) -> Schema.to_domain members c x = Ok (VMem c n))
  /\ (Schema.isinstance v c = false -> Schema.has_value members c v = false ->
      Schema.to_domain members c x = Err ValueError)
  /\ (Schema.isinstance x c = true -> Schema.to_wire members c x = Ok x)
  /\ (Schema.isinstance x c = false -> Schema.isinstance v c = true ->
      Schema.to_wire members c x = Ok v)
  /\ (forall n, In (n, v) (members c) ->
      Schema.to_wire members c x = Ok (if Schema.isinstance x c then x else VMem c n))
  /\ (Schema.isinstance x c = false -> Schema.isinstance v c = false ->
      Schema.has_value members c v = false -> Schema.to_wire members c x = Err ValueError).
Proof.
  assert (Hx : exists d k, x = VMem d k).
  { destruct x as [s|d k]; [discriminate Hv | eauto]. }
  destruct Hx as [d [k ->]].
  assert (Hcall_x : Schema.isinstance (VMem d k) c = false ->
                    Schema.enum_call members c (VMem d k) = Err ValueError).
  { intro Hi. unfold Schema.enum_call. rewrite Hi.
    rewrite (CrosswalkFacts.find_member_none members Hwf c d k). reflexivity. }
  assert (Hval : forall n, In (n, v) (members c) ->
                 Schema.isinstance v c = false
                 /\ Schema.enum_call members c v = Ok (VMem c n)).
  { intros n Hin. destruct (CrosswalkFacts.value_is_str members Hwf c n v Hin) as [s ->].
    split; [reflexivity|]. unfold Schema.enum_call. simpl.
    rewrite (CrosswalkFacts.find_by_value members Hwf c n (VStr s) Hin). reflexivity. }
  unfold Schema.to_domain, Schema.to_wire. rewrite Hv. simpl rbind.
  repeat split.
  - intro Hi. rewrite Hi. reflexivity.
  - intros n Hin. destruct (Hval n Hin) as [Hi E]. rewrite Hi. exact E.
  - intros Hi Hh. rewrite Hi. unfold Schema.enum_call. rewrite Hi.
    rewrite (CrosswalkFacts.find_none members c v Hh). reflexivity.
  - intro Hi. unfold Schema.enum_call. rewrite Hi. reflexivity.
  - intros Hi Hvi. rewrite (Hcall_x Hi). simpl. unfold Schema.enum_call. rewrite Hvi. reflexivity.
  - intros n Hin. destruct (Schema.isinstance (VMem d k) c) eqn:Hi.
    + unfold Schema.enum_call. rewrite Hi. reflexivity.
    + rewrite (Hcall_x eq_refl). simpl. exact (proj2 (Hval n Hin)).
  - intros Hi Hvi Hh. rewrite (Hcall_x Hi). simpl. unfold Schema.enum_call. rewrite Hvi.
    rewrite (CrosswalkFacts.find_none members c v Hh). reflexivity.
Qed.

Lemma enum_crosswalk_conversion_cases_witness :
  Schema.wf_members sample_members = true
  /\ Schema.get_value sample_members (VMem Role "SUPPORT") = Ok (VStr "support")
  /\ Schema.to_domain sample_members Role (VMem Role "SUPPORT") = Ok (VMem Role "SUPPORT").
Proof.
  split; [reflexivity|]. split; [reflexivity|].
  exact (proj1 (proj2 (enum_crosswalk_conversion_cases sample_members eq_refl Role
                         (VMem Role "SUPPORT") (VStr "support") eq_refl))
               "SUPPORT"%string (or_intror (or_intror (or_introl eq_refl)))).
Defined.

Module BridgeFacts.
Import Schema.

Lemma dict_get_set {V} (d : dict V) (k' k : pyval) (v : V) :
  dict_get (dict_set d k' v) k = if py_eqb k' k then Some v else dict_get d k.
Proof.
  induction d as [|[k'' v''] r IH]; simpl; [destruct (py_eqb k' k); reflexivity|].
  destruct (py_eqb k'' k') eqn:E1.
  - apply CrosswalkFacts.py_eqb_eq in E1; subst k''. simpl.
    destruct (py_eqb k' k); reflexivity.
  - simpl. rewrite IH.
    destruct (py_eqb k'' k) eqn:E2, (py_eqb k' k) eqn:E3; try reflexivity.
    apply CrosswalkFacts.py_eqb_eq in E2, E3; subst. rewrite CrosswalkFacts.py_eqb_refl in E1.
    discriminate.
Qed.

Lemma dict_get_set_same {V} (d : dict V) (k : pyval) (v : V) :
  dict_get (dict_set d k v) k = Some v.
Proof. rewrite dict_get_set, CrosswalkFacts.py_eqb_refl. reflexivity. Qed.

(** After a successful lookup miss, [_load_details] made exactly one
    downstream call and cached the hero under the locale's value. *)
Lemma load_details_miss_ok (members : cls -> list (string * pyval)) (Payload Hero : Type)
  (hero_validate : Payload -> result Hero)
  (process_request : list call -> call -> result (Payload * option string))
  (self : HeroNode Hero) (locale cache_key : pyval) (w w1 : World) (h : Hero)
  (self1 : HeroNode Hero) :
  get_value members locale = Ok cache_key ->
  dict_get (_details_cache Hero self) cache_key = None ->
  _load_details members Payload Hero hero_validate process_request self locale w
    = (Ok h, self1, w1) ->
  dict_get (_details_cache Hero self1) cache_key = Some h
  /\ exists hk loc, calls w1 = calls w ++ [GetHero hk loc].
Proof.
  intros Hk Hnone Hrun. unfold _load_details in Hrun. rewrite Hk, Hnone in Hrun.
  unfold mbind, lift in Hrun.
  destruct (_enum_to_hero_key members (key Hero self)) as [hk|e]; [|discriminate].
  destruct (_convert_locale members locale) as [loc|e]; [|discriminate].
  unfold _run_controller in Hrun.
  destruct (process_request (calls w) (GetHero hk loc)) as [[p th]|e]; [|discriminate].
  destruct (hero_validate p) as [hero|e]; [|discriminate].
  inversion Hrun; subst. simpl. split; [apply dict_get_set_same|].
  exists hk, loc. reflexivity.
Qed.

Lemma filter_loop_flat_map (by_key : dict HeroShort) (keys : list pyval)
  (acc : list HeroShort) :
  filter_loop by_key keys acc =
  acc ++ flat_map (fun k => match dict_get by_key k with Some h => [h] | None => [] end) keys.
Proof.
  revert acc; induction keys as [|k ks IH]; intro acc; simpl.
  - rewrite app_nil_r. reflexivity.
  - destruct (dict_get by_key k); rewrite IH; [rewrite <- app_assoc|]; reflexivity.
Qed.

Lemma find_app {A} (f : A -> bool) (l1 l2 : list A) :
  find f (l1 ++ l2) = match find f l1 with Some a => Some a | None => find f l2 end.
Proof.
  induction l1 as [|x r IH]; simpl; [reflexivity|].
  destruct (f x); [reflexivity | exact IH].
Qed.

Lemma fold_by_key_get (hero_shorts : list HeroShort) (d : dict HeroShort) (k : pyval) :
  dict_get (fold_left (fun d hero => dict_set d (hs_key hero) hero) hero_shorts d) k =
  match last_with_key k hero_shorts with Some h => Some h | None => dict_get d k end.
Proof.
  revert d; induction hero_shorts as [|x r IH]; intro d; [reflexivity|].
  simpl. rewrite IH. unfold last_with_key. simpl. rewrite find_app.
  destruct (find _ (rev r)) as [h|]; [reflexivity|]. simpl.
  rewrite dict_get_set. destruct (py_eqb (hs_key x) k); reflexivity.
Qed.

(** The lookup [{hero.key: hero for hero in hero_shorts}] finds the last
    Short Entity with the key. *)
Lemma by_key_get (hero_shorts : list HeroShort) (k : pyval) :
  dict_get (build_by_key hero_shorts) k = last_with_key k hero_shorts.
Proof.
  unfold build_by_key. rewrite fold_by_key_get.
  destruct (last_with_key k hero_shorts); reflexivity.
Qed.

Lemma filter_nonempty (hero_shorts : list HeroShort) (k : pyval) (ks : list pyval) :
  _filter_by_keys hero_shorts (k :: ks) =
  flat_map (fun k => match last_with_key k hero_shorts with Some h => [h] | None => [] end)
           (k :: ks).
Proof.
  unfold _filter_by_keys. rewrite filter_loop_flat_map. rewrite app_nil_l.
  apply flat_map_ext. intro k'. rewrite by_key_get. reflexivity.
Qed.

Lemma last_with_key_split (k : pyval) (l : list HeroShort) (h : HeroShort) :
  last_with_key k l = Some h ->
  hs_key h = k /\ exists pre post, l = pre ++ h :: post
                                    /\ Forall (fun h' => hs_key h' <> k) post.
Proof.
  unfold last_with_key. revert h.
  induction l as [|x l IH] using rev_ind; intro h; simpl; [discriminate|].
  rewrite rev_app_distr. simpl.
  destruct (py_eqb (hs_key x) k) eqn:E.
  - intro H; inversion H; subst x. apply CrosswalkFacts.py_eqb_eq in E.
    split; [exact E|]. exists l, []. split; [reflexivity | constructor].
  - intro H. destruct (IH h H) as [Hk [pre [post [-> Hpost]]]].
    split; [exact Hk|]. exists pre, (post ++ [x]). split.
    + rewrite <- app_assoc. reflexivity.
    + apply Forall_app. split; [exact Hpost|]. constructor; [|constructor].
      intro Ex. rewrite Ex, CrosswalkFacts.py_eqb_refl in E. discriminate.
Qed.

Lemma make_hero_node_typed (members : cls -> list (string * pyval)) (Hero : Type)
  (hs : HeroShort) :
  isinstance (hs_key hs) HeroKey = true -> isinstance (hs_role hs) Role = true ->
  _make_hero_node members Hero hs = Ok (node_of_short hs).
Proof.
  intros Hk Hr. unfold _make_hero_node, _hero_key_to_enum, _role_to_enum, to_wire, enum_call.
  rewrite Hk, Hr. reflexivity.
Qed.

Lemma map_make_hero_node (members : cls -> list (string * pyval)) (Hero : Type)
  (l : list HeroShort) :
  Forall (fun hs => isinstance (hs_key hs) HeroKey = true
                    /\ isinstance (hs_role hs) Role = true) l ->
  map_r (_make_hero_node members Hero) l = Ok (map node_of_short l).
Proof.
  induction l as [|x r IH]; intro H; [reflexivity|].
  inversion H as [|? ? [Hk Hr] Hrest]; subst. simpl.
  rewrite (make_hero_node_typed members Hero x Hk Hr), (IH Hrest). reflexivity.
Qed.

End BridgeFacts.

(** C8: when the downstream [process_request] raises [e], [_run_controller]
    raises the same [e] (no translation), the context (its [cache_ttl] and the
    outbound header) is exactly what it was, and every caller that continues
    after the bridge receives that same error. *)
Theorem run_controller_error_propagates (Payload : Type)
  (process_request : list Schema.call -> Schema.call -> result (Payload * option string))
  (c : Schema.call) (w : Schema.World) (e : exn)
  (He : process_request (Schema.calls w) c = Err e) :
  Schema._run_controller Payload process_request c w
    = (Err e, Schema.mkWorld (Schema.context w) (Schema.calls w ++ [c]))
  /\ (forall (B : Type) (k : Payload -> Schema.M B),
      Schema.mbind (Schema._run_controller Payload process_request c) k w
        = (Err e, Schema.mkWorld (Schema.context w) (Schema.calls w ++ [c]))).
Proof.
  assert (H : Schema._run_controller Payload process_request c w
              = (Err e, Schema.mkWorld (Schema.context w) (Schema.calls w ++ [c]))).
  { unfold Schema._run_controller. rewrite He. reflexivity. }
  split; [exact H|]. intros B k. unfold Schema.mbind. rewrite H. reflexivity.
Qed.

Lemma run_controller_error_propagates_witness :
  let w := Schema.mkWorld (Context.holding 60) [] in
  let c := Schema.GetHero (VMem HeroKey "ANA") (VMem Locale "ENGLISH_US") in
  Schema._run_controller nat (fun _ _ => Err (DownstreamError 7)) c w
    = (Err (DownstreamError 7), Schema.mkWorld (Context.holding 60) [c]).
Proof.
  exact (proj1 (run_controller_error_propagates nat (fun _ _ => Err (DownstreamError 7))
                  (Schema.GetHero (VMem HeroKey "ANA") (VMem Locale "ENGLISH_US"))
                  (Schema.mkWorld (Context.holding 60) []) (DownstreamError 7) eq_refl)).
Defined.

(** C2: when the node already caches a [Hero] under the locale's value,
    [_load_details] returns it and leaves the node and the world untouched: no
    downstream call, no TTL merge. When it does not, a first call that returns
    [h] makes exactly one downstream [GetHero] call, and a second call with the
    same locale on the updated node returns the same [h] with no further
    call. *)
Theorem load_details_cache_hit (members : cls -> list (string * pyval)) (Payload Hero : Type)
  (hero_validate : Payload -> result Hero)
  (process_request : list Schema.call -> Schema.call -> result (Payload * option string))
  (self : Schema.HeroNode Hero) (locale cache_key : pyval)
  (Hk : Schema.get_value members locale = Ok cache_key) :
  (forall (h : Hero) (w : Schema.World),
     dict_get (Schema._details_cache Hero self) cache_key = Some h ->
     Schema._load_details members Payload Hero hero_validate process_request self locale w
       = (Ok h, self, w))
  /\ (dict_get (Schema._details_cache Hero self) cache_key = None ->
      forall (w : Schema.World) (h : Hero) (self1 : Schema.HeroNode Hero) (w1 : Schema.World),
      Schema._load_details members Payload Hero hero_validate process_request self locale w
        = (Ok h, self1, w1) ->
      Schema._load_details members Payload Hero hero_validate process_request self1 locale w1
        = (Ok h, self1, w1)
      /\ exists hk loc, Schema.calls w1 = Schema.calls w ++ [Schema.GetHero hk loc]).
Proof.
  assert (Hhit : forall (n : Schema.HeroNode Hero) (h : Hero) (w : Schema.World),
            dict_get (Schema._details_cache Hero n) cache_key = Some h ->
            Schema._load_details members Payload Hero hero_validate process_request n locale w
              = (Ok h, n, w)).
  { intros n h w Hc. unfold Schema._load_details. rewrite Hk, Hc. reflexivity. }
  split; [intros h w; apply Hhit|].
  intros Hnone w h self1 w1 Hrun.
  destruct (BridgeFacts.load_details_miss_ok members Payload Hero hero_validate process_request
              self locale cache_key w w1 h self1 Hk Hnone Hrun) as [Hc Hcalls].
  split; [apply Hhit; exact Hc | exact Hcalls].
Qed.

Lemma load_details_cache_hit_witness :
  let node := Schema.mkHeroNode nat (VMem HeroKey "ANA") "Ana" "p" (VMem Role "SUPPORT")
                                [(VStr "en-us", 5%nat)] in
  let w := Schema.mkWorld (Context.build_context None) [] in
  Schema.get_value sample_members (VMem Locale "ENGLISH_US") = Ok (VStr "en-us")
  /\ Schema._load_details sample_members unit nat (fun _ => Ok 1%nat)
       (fun _ _ => Ok (tt, Some "60"%string)) node (VMem Locale "ENGLISH_US") w
     = (Ok 5%nat, node, w).
Proof.
  split; [reflexivity|].
  apply (proj1 (load_details_cache_hit sample_members unit nat (fun _ => Ok 1%nat)
                  (fun _ _ => Ok (tt, Some "60"%string))
                  (Schema.mkHeroNode nat (VMem HeroKey "ANA") "Ana" "p" (VMem Role "SUPPORT")
                                     [(VStr "en-us", 5%nat)])
                  (VMem Locale "ENGLISH_US") (VStr "en-us") eq_refl)).
  reflexivity.
Defined.

(** C3: with a non-empty [keys] list, [_filter_by_keys] walks the caller's
    keys in order and emits, for each key, the Short Entity the downstream
    lookup holds for it, or nothing when the key is absent; a repeated key is
    emitted once per repetition. *)
Theorem filter_by_keys_follows_keys (hero_shorts : list Schema.HeroShort)
  (k : pyval) (ks : list pyval) :
  Schema._filter_by_keys hero_shorts (k :: ks) =
  flat_map (fun k => match last_with_key k hero_shorts with Some h => [h] | None => [] end)
           (k :: ks).
Proof. apply BridgeFacts.filter_nonempty. Qed.

Example filter_by_keys_order_sample :
  Schema._filter_by_keys [sample_ana; sample_lucio; sample_sojourn]
    [VMem HeroKey "SOJOURN"; VMem HeroKey "ANA"; VMem HeroKey "SOJOURN"]
  = [sample_sojourn; sample_ana; sample_sojourn].
Proof. reflexivity. Qed.

Example filter_by_keys_missing_sample :
  Schema._filter_by_keys [sample_ana; sample_sojourn]
    [VMem HeroKey "ANA"; VMem HeroKey "LUCIO"]
  = [sample_ana].
Proof. reflexivity. Qed.

(** C9: with a non-empty [keys] list, every Short Entity [_filter_by_keys]
    emits is the last one with its key in downstream order: it occurs in the
    downstream list and no later entry shares its key. *)
Theorem filter_by_keys_last_write_wins (hero_shorts : list Schema.HeroShort)
  (k : pyval) (ks : list pyval) :
  Forall (fun h => exists pre post, hero_shorts = pre ++ h :: post
                                    /\ Forall (fun h' => Schema.hs_key h' <> Schema.hs_key h) post)
         (Schema._filter_by_keys hero_shorts (k :: ks)).
Proof.
  rewrite BridgeFacts.filter_nonempty. apply Forall_forall. intros h Hin.
  apply in_flat_map in Hin as [k' [_ Hin]].
  destruct (last_with_key k' hero_shorts) as [h'|] eqn:E; [|destruct Hin].
  destruct Hin as [<-|[]].
  destruct (BridgeFacts.last_with_key_split k' hero_shorts h' E) as [Hk [pre [post [Hl Hp]]]].
  exists pre, post. split; [exact Hl|]. rewrite Hk. exact Hp.
Qed.

Example filter_by_keys_duplicate_sample :
  let ana2 := Schema.mkHeroShort (VMem HeroKey "ANA") "Ana (2)" "q" (VMem Role "SUPPORT") in
  Schema._filter_by_keys [sample_ana; sample_lucio; ana2] [VMem HeroKey "ANA"] = [ana2].
Proof. reflexivity. Qed.

(** C4: when [keys] is absent or empty, [_filter_by_keys] returns the
    downstream list as it is, and [heroes] returns every Short Entity the
    downstream call produced, in downstream order, each wrapped as a node
    with the same key, name, portrait and role and an empty detail cache
    (the validated [HeroShort]s hold a [HeroKey] key and a [Role] role). *)
Theorem heroes_without_keys_passthrough (members : cls -> list (string * pyval))
  (Payload Hero : Type) (iter_payload : Payload -> result (list Payload))
  (short_validate : Payload -> result Schema.HeroShort)
  (process_request : list Schema.call -> Schema.call -> result (Payload * option string))
  (role : option pyval) (locale : pyval) (keys : option (list pyval)) (w : Schema.World)
  (r : option pyval) (loc : pyval) (payload : Payload) (th : option string)
  (items : list Payload) (hero_shorts : list Schema.HeroShort)
  (Hkeys : keys = None \/ keys = Some [])
  (Hr : Schema._convert_role members role = Ok r)
  (Hl : Schema._convert_locale members locale = Ok loc)
  (Hp : process_request (Schema.calls w) (Schema.ListHeroes r loc) = Ok (payload, th))
  (Hi : iter_payload payload = Ok items)
  (Hs : map_r short_validate items = Ok hero_shorts)
  (Ht : forallb (fun hs => Schema.isinstance (Schema.hs_key hs) HeroKey
                           && Schema.isinstance (Schema.hs_role hs) Role) hero_shorts = true) :
  Schema._filter_by_keys hero_shorts [] = hero_shorts
  /\ fst (Schema.heroes members Payload Hero iter_payload short_validate process_request
                        role locale keys w)
     = Ok (map node_of_short hero_shorts).
Proof.
  split; [reflexivity|].
  assert (Ht' : Forall (fun hs => Schema.isinstance (Schema.hs_key hs) HeroKey = true
                                  /\ Schema.isinstance (Schema.hs_role hs) Role = true)
                       hero_shorts).
  { apply Forall_forall. intros hs Hin. rewrite forallb_forall in Ht.
    specialize (Ht hs Hin). apply andb_true_iff in Ht. exact Ht. }
  unfold Schema.heroes, Schema.mbind, Schema.lift, Schema._run_controller.
  rewrite Hr, Hl, Hp, Hi, Hs.
  assert (Hk : match keys with
               | None | Some [] => Ok []
               | Some ks => Schema._convert_keys members ks
               end = Ok []) by (destruct Hkeys as [-> | ->]; reflexivity).
  rewrite Hk. simpl. rewrite (BridgeFacts.map_make_hero_node members Hero hero_shorts Ht').
  reflexivity.
Qed.

Lemma heroes_without_keys_passthrough_witness :
  fst (Schema.heroes sample_members (list Schema.HeroShort) unit
         (fun p => Ok (map (fun h => [h]) p))
         (fun p => match p with [h] => Ok h | _ => Err ValidationError end)
         (fun _ _ => Ok ([sample_ana; sample_lucio], Some "60"%string))
         None (VMem Locale "ENGLISH_US") None (Schema.mkWorld (Context.build_context None) []))
  = Ok (map node_of_short [sample_ana; sample_lucio]).
Proof.
  apply (heroes_without_keys_passthrough sample_members (list Schema.HeroShort) unit
           (fun p => Ok (map (fun h => [h]) p))
           (fun p => match p with [h] => Ok h | _ => Err ValidationError end)
           (fun _ _ => Ok ([sample_ana; sample_lucio], Some "60"%string))
           None (VMem Locale "ENGLISH_US") None (Schema.mkWorld (Context.build_context None) [])
           None (VMem Locale "ENGLISH_US") [sample_ana; sample_lucio] (Some "60"%string)
           [[sample_ana]; [sample_lucio]] [sample_ana; sample_lucio]);
    try reflexivity.
  left; reflexivity.
Defined.

(* ================================================================== *)
(** * Further properties of the code *)

Module PyIntFacts.

Lemma digit_not_space (c : ascii) : is_digit c = true -> is_space c = false.
Proof.
  intro H. destruct c as [[] [] [] [] [] [] [] []]; vm_compute in H |- *;
    first [reflexivity | discriminate H].
Qed.

Lemma digit_char (k : Z) : 0 <= k < 10 ->
  is_digit (ascii_of_nat (Z.to_nat k + 48)) = true
  /\ digit_val (ascii_of_nat (Z.to_nat k + 48)) = k.
Proof.
  intro H.
  assert (k = 0 \/ k = 1 \/ k = 2 \/ k = 3 \/ k = 4 \/ k = 5 \/ k = 6 \/ k = 7 \/ k = 8 \/ k = 9)
    as Hk by lia.
  repeat destruct Hk as [->|Hk]; try (subst k); split; reflexivity.
Qed.

Lemma parse_digits_cons_digit (c : ascii) (r : list ascii) (acc : Z) :
  is_digit c = true -> parse_digits (c :: r) acc = parse_digits r (acc * 10 + digit_val c).
Proof. intro H. simpl. rewrite H. reflexivity. Qed.

(** [digits_of_pos] with enough fuel writes the decimal digits of [n] in
    front of [acc], and reading them back gives [n]. *)
Lemma digits_of_pos_spec (f : nat) : forall (n : Z) (acc : list ascii),
  0 <= n < 2 ^ Z.of_nat (S f) ->
  (exists d r, digits_of_pos (S f) n acc = d :: r /\ is_digit d = true)
  /\ parse_unsigned (digits_of_pos (S f) n acc) = parse_digits acc n
  /\ (Forall (fun c => is_digit c = true) acc ->
      Forall (fun c => is_digit c = true) (digits_of_pos (S f) n acc)).
Proof.
  induction f as [|f IH]; intros n acc Hn.
  - simpl in Hn. simpl digits_of_pos.
    destruct (digit_char (n mod 10)) as [Hd Hv]; [apply Z.mod_pos_bound; lia|].
    assert ((n <? 10) = true) as -> by (apply Z.ltb_lt; lia).
    split; [eexists; eexists; split; [reflexivity | exact Hd]|]. split.
    + simpl. rewrite Hd, Hv. rewrite Z.mod_small by lia. reflexivity.
    + intro Ha. constructor; assumption.
  - destruct (digit_char (n mod 10)) as [Hd Hv]; [apply Z.mod_pos_bound; lia|].
    change (digits_of_pos (S (S f)) n acc) with
      (let acc' := ascii_of_nat (Z.to_nat (n mod 10) + 48) :: acc in
       if n <? 10 then acc' else digits_of_pos (S f) (n / 10) acc').
    cbv zeta.
    destruct (Z.ltb_spec n 10) as [Hlt|Hge].
    + split; [eexists; eexists; split; [reflexivity | exact Hd]|]. split.
      * simpl. rewrite Hd, Hv. rewrite Z.mod_small by lia. reflexivity.
      * intro Ha. constructor; assumption.
    + assert (Hq : 0 <= n / 10 < 2 ^ Z.of_nat (S f)).
      { assert (HP : 2 ^ Z.of_nat (S (S f)) = 2 * 2 ^ Z.of_nat (S f)).
        { rewrite Nat2Z.inj_succ, Z.pow_succ_r by lia. reflexivity. }
        assert (0 < 2 ^ Z.of_nat (S f)) by (apply Z.pow_pos_nonneg; lia).
        split; [apply Z.div_pos; lia|].
        apply Z.div_lt_upper_bound; lia. }
      destruct (IH (n / 10) (ascii_of_nat (Z.to_nat (n mod 10) + 48) :: acc) Hq)
        as [Hhead [Hparse Hall]].
      split; [exact Hhead|]. split.
      * rewrite Hparse, parse_digits_cons_digit by exact Hd. rewrite Hv.
        f_equal. pose proof (Z.div_mod n 10). lia.
      * intro Ha. apply Hall. constructor; assumption.
Qed.

Lemma drop_spaces_id (l : list ascii) :
  Forall (fun c => is_space c = false) l -> drop_spaces l = l.
Proof. intro H. destruct l as [|c r]; [reflexivity|]. inversion H; subst. simpl. rewrite H2. reflexivity. Qed.

Lemma strip_id (l : list ascii) :
  Forall (fun c => is_space c = false) l -> strip l = l.
Proof.
  intro H. unfold strip. rewrite (drop_spaces_id l H).
  rewrite drop_spaces_id by (apply Forall_rev; exact H). apply rev_involutive.
Qed.

Lemma py_int_digit_head (d : ascii) (r : list ascii) :
  is_digit d = true -> strip (d :: r) = d :: r ->
  py_int (string_of_list_ascii (d :: r)) = parse_unsigned (d :: r).
Proof.
  intros Hd Hs. unfold py_int. rewrite list_ascii_of_string_of_list_ascii, Hs.
  destruct d as [[] [] [] [] [] [] [] []]; vm_compute in Hd;
    first [discriminate Hd | reflexivity].
Qed.

Lemma fuel_enough (n : Z) :
  0 <= Z.abs n < 2 ^ Z.of_nat (S (Z.to_nat (Z.log2_up (Z.abs n + 1)))).
Proof.
  pose proof (Z.log2_up_nonneg (Z.abs n + 1)) as Hnn.
  rewrite Nat2Z.inj_succ, Z2Nat.id by exact Hnn.
  rewrite Z.pow_succ_r by exact Hnn.
  split; [lia|].
  destruct (Z.eq_dec (Z.abs n) 0) as [E|E].
  - rewrite E. vm_compute. reflexivity.
  - destruct (Z.log2_up_spec (Z.abs n + 1)) as [_ H]; [lia|]. lia.
Qed.

End PyIntFacts.

(** X1: [str] and [int] round-trip: the header text [str(ttl_value)] that
    [merge_cache_ttl] writes is read back by [int()] as [ttl_value], for every
    integer, negative ones included. *)
Lemma py_str_round_trip (n : Z) : py_int (py_str n) = Some n.
Proof.
  unfold py_str.
  set (f := Z.to_nat (Z.log2_up (Z.abs n + 1))).
  destruct (PyIntFacts.digits_of_pos_spec f (Z.abs n) [] (PyIntFacts.fuel_enough n))
    as [[d [r [Hds Hd]]] [Hparse Hall]].
  specialize (Hall (Forall_nil _)).
  assert (Hns : Forall (fun c => is_space c = false) (digits_of_pos (S f) (Z.abs n) [])).
  { eapply Forall_impl; [|exact Hall]. intros c Hc. apply PyIntFacts.digit_not_space, Hc. }
  destruct (Z.ltb_spec n 0) as [Hneg|Hpos].
  - unfold py_int. rewrite list_ascii_of_string_of_list_ascii.
    rewrite PyIntFacts.strip_id by (constructor; [reflexivity | exact Hns]).
    cbn [option_map]. rewrite Hparse. simpl. f_equal. lia.
  - rewrite Hds. rewrite Hds in Hns.
    rewrite PyIntFacts.py_int_digit_head by (exact Hd || apply PyIntFacts.strip_id, Hns).
    rewrite <- Hds, Hparse. simpl. f_equal. lia.
Qed.

Theorem py_int_py_str (n : Z) : py_int (py_str n) = Some n.
Proof. exact (py_str_round_trip n). Qed.

Module ContextFacts3.
Import Context.

Lemma min_unique (l1 l2 : list Z) (m1 m2 : Z) :
  Permutation l1 l2 -> In m1 l1 -> Forall (fun z => m1 <= z) l1 ->
  In m2 l2 -> Forall (fun z => m2 <= z) l2 -> m1 = m2.
Proof.
  intros Hp H1 L1 H2 L2. rewrite Forall_forall in L1, L2.
  assert (m2 <= m1) by (apply L2; exact (Permutation_in _ Hp H1)).
  assert (m1 <= m2) by (apply L1; exact (Permutation_in _ (Permutation_sym Hp) H2)).
  lia.
Qed.

Lemma merge_all_permutation (h0 : option string) (vs vs' : list (option string)) :
  Permutation vs vs' ->
  merge_all (build_context h0) vs = merge_all (build_context h0) vs'.
Proof.
  intro Hp.
  assert (Hq : Permutation (parsed_values vs) (parsed_values vs'))
    by (unfold parsed_values; apply Permutation_flat_map; exact Hp).
  rewrite !ContextFacts.merge_all_fresh.
  destruct (parsed_values vs) as [|z zs] eqn:E1, (parsed_values vs') as [|z' zs'] eqn:E2.
  - reflexivity.
  - apply Permutation_nil in Hq. discriminate.
  - apply Permutation_sym, Permutation_nil in Hq. discriminate.
  - assert (fold_left Z.min zs z = fold_left Z.min zs' z') as ->; [|reflexivity].
    apply (min_unique (z :: zs) (z' :: zs')); try exact Hq;
      first [apply ContextFacts.fold_min_in | apply ContextFacts.fold_min_lower].
Qed.

Lemma merge_idempotent (ctx : GraphQLContext) (v : option string) :
  merge_cache_ttl (merge_cache_ttl ctx v) v = merge_cache_ttl ctx v.
Proof.
  destruct v as [s|]; [|reflexivity].
  unfold merge_cache_ttl at 2 3.
  destruct (py_int s) as [z|] eqn:Hz; [|unfold merge_cache_ttl; rewrite Hz; reflexivity].
  destruct (cache_ttl ctx) as [c|] eqn:Hc.
  - destruct (Z.ltb_spec z c).
    + unfold merge_cache_ttl. rewrite Hz. simpl. rewrite Z.ltb_irrefl. reflexivity.
    + unfold merge_cache_ttl. rewrite Hz, Hc. destruct (Z.ltb_spec z c); [lia | reflexivity].
  - unfold merge_cache_ttl. rewrite Hz. simpl. rewrite Z.ltb_irrefl. reflexivity.
Qed.

Lemma header_reads_back (h0 : option string) (vs : list (option string)) :
  let ctx := merge_all (build_context h0) vs in
  match cache_ttl ctx with
  | None => ttl_header ctx = h0
  | Some m => exists s, ttl_header ctx = Some s /\ py_int s = Some m
  end.
Proof.
  simpl. rewrite ContextFacts.merge_all_fresh.
  destruct (parsed_values vs) as [|z zs]; [reflexivity|].
  simpl. eexists; split; [reflexivity | apply py_str_round_trip].
Qed.

End ContextFacts3.

(** X2: after any sequence of [merge_cache_ttl] calls on a fresh context, the
    outbound TTL header and [cache_ttl] agree: when [cache_ttl] holds [m] the
    header holds a text that [int()] reads as [m]; when it is unset the header
    is whatever the response had before. *)
Theorem merge_cache_ttl_header_reads_back (h0 : option string) (vs : list (option string)) :
  let ctx := Context.merge_all (Context.build_context h0) vs in
  match Context.cache_ttl ctx with
  | None => Context.ttl_header ctx = h0
  | Some m => exists s, Context.ttl_header ctx = Some s /\ py_int s = Some m
  end.
Proof. exact (ContextFacts3.header_reads_back h0 vs). Qed.

(** X3: the final context does not depend on the order of the
    [merge_cache_ttl] calls: merging a permutation of the same header values
    into a fresh context gives the same [cache_ttl] and the same header. *)
Theorem merge_cache_ttl_order_independent (h0 : option string) (vs vs' : list (option string))
  (Hp : Permutation vs vs') :
  Context.merge_all (Context.build_context h0) vs = Context.merge_all (Context.build_context h0) vs'.
Proof. exact (ContextFacts3.merge_all_permutation h0 vs vs' Hp). Qed.

Lemma merge_cache_ttl_order_independent_witness :
  Context.merge_all (Context.build_context None) [Some "90"%string; None; Some "30"%string]
  = Context.merge_all (Context.build_context None) [Some "30"%string; Some "90"%string; None].
Proof.
  apply merge_cache_ttl_order_independent.
  apply (perm_trans (l' := [Some "90"%string; Some "30"%string; None])).
  - apply perm_skip, perm_swap.
  - apply perm_swap.
Defined.

(** X4: merging the same header value twice in a row has the effect of merging
    it once, from any context. *)
Theorem merge_cache_ttl_idempotent (ctx : Context.GraphQLContext) (v : option string) :
  Context.merge_cache_ttl (Context.merge_cache_ttl ctx v) v = Context.merge_cache_ttl ctx v.
Proof. exact (ContextFacts3.merge_idempotent ctx v). Qed.

Module SchemaFacts.
Import Schema.

Lemma filter_subset (hero_shorts : list HeroShort) (keys : list pyval) :
  Forall (fun h => In h hero_shorts /\ (keys = [] \/ In (hs_key h) keys))
         (_filter_by_keys hero_shorts keys)
  /\ (keys <> [] -> (List.length (_filter_by_keys hero_shorts keys) <= List.length keys)%nat).
Proof.
  destruct keys as [|k ks].
  - split; [|intro H; contradiction H; reflexivity].
    apply Forall_forall. intros h Hin. split; [exact Hin | left; reflexivity].
  - rewrite BridgeFacts.filter_nonempty. split.
    + apply Forall_forall. intros h Hin.
      apply in_flat_map in Hin as [k' [Hk' Hin]].
      destruct (last_with_key k' hero_shorts) as [h'|] eqn:E; [|destruct Hin].
      destruct Hin as [<-|[]].
      destruct (BridgeFacts.last_with_key_split k' hero_shorts h' E)
        as [Hk [pre [post [Hl _]]]].
      split.
      * rewrite Hl. apply in_or_app. right. left. reflexivity.
      * right. rewrite Hk. exact Hk'.
    + intros _. generalize (k :: ks). intro l.
      induction l as [|x r IH]; simpl; [lia|].
      destruct (last_with_key x hero_shorts); simpl; lia.
Qed.

Lemma convert_keys_members (members : cls -> list (string * pyval))
  (Hwf : wf_members members = true) (ks : list pyval) :
  forallb (is_member members HeroKey) ks = true -> _convert_keys members ks = Ok ks.
Proof.
  induction ks as [|x r IH]; intro H; [reflexivity|].
  simpl in H. apply andb_true_iff in H as [Hx Hr].
  assert (Ex : _enum_to_hero_key members x = Ok x)
    by exact (CrosswalkFacts.to_domain_member members Hwf HeroKey x Hx).
  unfold _convert_keys in *. simpl. rewrite Ex. simpl. rewrite (IH Hr). reflexivity.
Qed.

Ltac split_results :=
  repeat match goal with
         | |- context [match ?x with Ok _ => _ | Err _ => _ end] => destruct x
         end.

Lemma heroes_world_after_list_call (members : cls -> list (string * pyval))
  (Payload Hero : Type) (iter_payload : Payload -> result (list Payload))
  (short_validate : Payload -> result HeroShort)
  (process_request : list call -> call -> result (Payload * option string))
  (role : option pyval) (locale : pyval) (keys : option (list pyval)) (w : World)
  (r : option pyval) (loc : pyval) (payload : Payload) (th : option string) :
  _convert_role members role = Ok r ->
  _convert_locale members locale = Ok loc ->
  process_request (calls w) (ListHeroes r loc) = Ok (payload, th) ->
  snd (heroes members Payload Hero iter_payload short_validate process_request role locale keys w)
  = mkWorld (Context.merge_cache_ttl (context w) th) (calls w ++ [ListHeroes r loc]).
Proof.
  intros Hr Hl Hp.
  unfold heroes, mbind, lift, _run_controller. rewrite Hr, Hl, Hp.
  split_results; reflexivity.
Qed.

Lemma load_details_failure (members : cls -> list (string * pyval)) (Payload Hero : Type)
  (hero_validate : Payload -> result Hero)
  (process_request : list call -> call -> result (Payload * option string))
  (self : HeroNode Hero) (locale : pyval) (w w1 : World) (e : exn) (self1 : HeroNode Hero) :
  _load_details members Payload Hero hero_validate process_request self locale w
    = (Err e, self1, w1) ->
  self1 = self
  /\ (w1 = w \/ exists hk loc, calls w1 = calls w ++ [GetHero hk loc]).
Proof.
  intro Hrun. unfold _load_details in Hrun.
  destruct (get_value members locale) as [ck|e']; [|inversion Hrun; auto].
  destruct (dict_get (_details_cache Hero self) ck); [discriminate|].
  unfold mbind, lift in Hrun.
  destruct (_enum_to_hero_key members (key Hero self)) as [hk|e']; [|inversion Hrun; auto].
  destruct (_convert_locale members locale) as [loc|e']; [|inversion Hrun; auto].
  unfold _run_controller in Hrun.
  destruct (process_request (calls w) (GetHero hk loc)) as [[p th]|e'].
  - destruct (hero_validate p); [discriminate|].
    inversion Hrun; subst. split; [reflexivity|]. right. exists hk, loc. reflexivity.
  - inversion Hrun; subst. split; [reflexivity|]. right. exists hk, loc. reflexivity.
Qed.

Lemma load_details_success (members : cls -> list (string * pyval)) (Payload Hero : Type)
  (hero_validate : Payload -> result Hero)
  (process_request : list call -> call -> result (Payload * option string))
  (self : HeroNode Hero) (locale ck : pyval) (w w1 : World) (h : Hero) (self1 : HeroNode Hero) :
  get_value members locale = Ok ck ->
  _load_details members Payload Hero hero_validate process_request self locale w
    = (Ok h, self1, w1) ->
  key Hero self1 = key Hero self /\ name Hero self1 = name Hero self
  /\ portrait Hero self1 = portrait Hero self /\ role Hero self1 = role Hero self
  /\ dict_get (_details_cache Hero self1) ck = Some h
  /\ (forall k, py_eqb ck k = false ->
      dict_get (_details_cache Hero self1) k = dict_get (_details_cache Hero self) k).
Proof.
  intros Hk Hrun. unfold _load_details in Hrun. rewrite Hk in Hrun.
  destruct (dict_get (_details_cache Hero self) ck) as [c|] eqn:Hc.
  - inversion Hrun; subst. repeat split; auto.
  - unfold mbind, lift in Hrun.
    destruct (_enum_to_hero_key members (key Hero self)) as [hk|e']; [|discriminate].
    destruct (_convert_locale members locale) as [loc|e']; [|discriminate].
    unfold _run_controller in Hrun.
    destruct (process_request (calls w) (GetHero hk loc)) as [[p th]|e']; [|discriminate].
    destruct (hero_validate p) as [hero|e']; [|discriminate].
    inversion Hrun; subst. simpl. repeat split.
    + apply BridgeFacts.dict_get_set_same.
    + intros k Hne. rewrite BridgeFacts.dict_get_set, Hne. reflexivity.
Qed.

End SchemaFacts.

(** X5: [_filter_by_keys] only returns Short Entities of the downstream list,
    and with a non-empty [keys] list only ones whose key was requested, at most
    one per requested key. *)
Theorem filter_by_keys_subset (hero_shorts : list Schema.HeroShort) (keys : list pyval) :
  Forall (fun h => In h hero_shorts /\ (keys = [] \/ In (Schema.hs_key h) keys))
         (Schema._filter_by_keys hero_shorts keys)
  /\ (keys <> [] ->
      (List.length (Schema._filter_by_keys hero_shorts keys) <= List.length keys)%nat).
Proof. exact (SchemaFacts.filter_subset hero_shorts keys). Qed.

(** X6: with a non-empty [keys] list of [HeroKey] members, [heroes] returns
    the nodes of the Short Entities [_filter_by_keys] selects, in the order of
    the caller's keys, each with an empty detail cache. *)
Theorem heroes_with_keys (members : cls -> list (string * pyval))
  (Hwf : Schema.wf_members members = true)
  (Payload Hero : Type) (iter_payload : Payload -> result (list Payload))
  (short_validate : Payload -> result Schema.HeroShort)
  (process_request : list Schema.call -> Schema.call -> result (Payload * option string))
  (role : option pyval) (locale : pyval) (k : pyval) (ks : list pyval) (w : Schema.World)
  (r : option pyval) (loc : pyval) (payload : Payload) (th : option string)
  (items : list Payload) (hero_shorts : list Schema.HeroShort)
  (Hks : forallb (Schema.is_member members HeroKey) (k :: ks) = true)
  (Hr : Schema._convert_role members role = Ok r)
  (Hl : Schema._convert_locale members locale = Ok loc)
  (Hp : process_request (Schema.calls w) (Schema.ListHeroes r loc) = Ok (payload, th))
  (Hi : iter_payload payload = Ok items)
  (Hs : map_r short_validate items = Ok hero_shorts)
  (Ht : forallb (fun hs => Schema.isinstance (Schema.hs_key hs) HeroKey
                           && Schema.isinstance (Schema.hs_role hs) Role) hero_shorts = true) :
  fst (Schema.heroes members Payload Hero iter_payload short_validate process_request
                     role locale (Some (k :: ks)) w)
  = Ok (map node_of_short (Schema._filter_by_keys hero_shorts (k :: ks))).
Proof.
  assert (Hsub := proj1 (SchemaFacts.filter_subset hero_shorts (k :: ks))).
  assert (Ht' : Forall (fun hs => Schema.isinstance (Schema.hs_key hs) HeroKey = true
                                  /\ Schema.isinstance (Schema.hs_role hs) Role = true)
                       (Schema._filter_by_keys hero_shorts (k :: ks))).
  { eapply Forall_impl; [|exact Hsub]. intros hs [Hin _].
    rewrite forallb_forall in Ht. apply andb_true_iff, Ht, Hin. }
  unfold Schema.heroes, Schema.mbind, Schema.lift, Schema._run_controller.
  rewrite Hr, Hl, Hp, Hi, Hs.
  rewrite (SchemaFacts.convert_keys_members members Hwf (k :: ks) Hks).
  rewrite (BridgeFacts.map_make_hero_node members Hero _ Ht'). reflexivity.
Qed.

Lemma heroes_with_keys_witness :
  fst (Schema.heroes sample_members (list Schema.HeroShort) unit sample_iter sample_validate
         (sample_controllers [sample_ana; sample_lucio; sample_sojourn] [])
         None (VMem Locale "ENGLISH_US") (Some [VMem HeroKey "SOJOURN"; VMem HeroKey "ANA"])
         sample_world)
  = Ok (map node_of_short (Schema._filter_by_keys [sample_ana; sample_lucio; sample_sojourn]
                             [VMem HeroKey "SOJOURN"; VMem HeroKey "ANA"])).
Proof.
  apply (heroes_with_keys sample_members eq_refl (list Schema.HeroShort) unit sample_iter
           sample_validate (sample_controllers [sample_ana; sample_lucio; sample_sojourn] [])
           None (VMem Locale "ENGLISH_US") (VMem HeroKey "SOJOURN") [VMem HeroKey "ANA"]
           sample_world None (VMem Locale "ENGLISH_US") [sample_ana; sample_lucio; sample_sojourn]
           (Some "60"%string) [[sample_ana]; [sample_lucio]; [sample_sojourn]]
           [sample_ana; sample_lucio; sample_sojourn]); reflexivity.
Defined.

(** X7: when the role or the locale argument fails to convert, [heroes]
    raises that error before any downstream call: the world (context and
    calls) is untouched. *)
Theorem heroes_conversion_error_no_call (members : cls -> list (string * pyval))
  (Payload Hero : Type) (iter_payload : Payload -> result (list Payload))
  (short_validate : Payload -> result Schema.HeroShort)
  (process_request : list Schema.call -> Schema.call -> result (Payload * option string))
  (role : option pyval) (locale : pyval) (keys : option (list pyval)) (w : Schema.World) :
  (forall e, Schema._convert_role members role = Err e ->
     Schema.heroes members Payload Hero iter_payload short_validate process_request
                   role locale keys w = (Err e, w))
  /\ (forall r e, Schema._convert_role members role = Ok r ->
      Schema._convert_locale members locale = Err e ->
      Schema.heroes members Payload Hero iter_payload short_validate process_request
                    role locale keys w = (Err e, w)).
Proof.
  split.
  - intros e He. unfold Schema.heroes, Schema.mbind, Schema.lift. rewrite He. reflexivity.
  - intros r e Hr He. unfold Schema.heroes, Schema.mbind, Schema.lift. rewrite Hr, He.
    reflexivity.
Qed.

(** X8: once the role and locale convert and the list controller returns, the
    world after [heroes] is fixed whatever happens next (payload iteration,
    validation, key conversion or node building may still raise): exactly one
    [ListHeroes] call is recorded and its TTL header is merged into the
    context. *)
Theorem heroes_merges_list_ttl (members : cls -> list (string * pyval))
  (Payload Hero : Type) (iter_payload : Payload -> result (list Payload))
  (short_validate : Payload -> result Schema.HeroShort)
  (process_request : list Schema.call -> Schema.call -> result (Payload * option string))
  (role : option pyval) (locale : pyval) (keys : option (list pyval)) (w : Schema.World)
  (r : option pyval) (loc : pyval) (payload : Payload) (th : option string)
  (Hr : Schema._convert_role members role = Ok r)
  (Hl : Schema._convert_locale members locale = Ok loc)
  (Hp : process_request (Schema.calls w) (Schema.ListHeroes r loc) = Ok (payload, th)) :
  snd (Schema.heroes members Payload Hero iter_payload short_validate process_request
                     role locale keys w)
  = Schema.mkWorld (Context.merge_cache_ttl (Schema.context w) th)
                   (Schema.calls w ++ [Schema.ListHeroes r loc]).
Proof.
  exact (SchemaFacts.heroes_world_after_list_call members Payload Hero iter_payload
           short_validate process_request role locale keys w r loc payload th Hr Hl Hp).
Qed.

(** Here the key is the [Role] member [SUPPORT], whose value is no [HeroKey]
    code, so [_convert_keys] raises [ValueError] after the list call; the TTL
    60 is merged all the same. *)
Lemma heroes_merges_list_ttl_witness :
  fst (Schema.heroes sample_members (list Schema.HeroShort) unit sample_iter sample_validate
         (sample_controllers [sample_ana] []) None (VMem Locale "ENGLISH_US")
         (Some [VMem Role "SUPPORT"]) sample_world) = Err ValueError
  /\ snd (Schema.heroes sample_members (list Schema.HeroShort) unit sample_iter sample_validate
         (sample_controllers [sample_ana] []) None (VMem Locale "ENGLISH_US")
         (Some [VMem Role "SUPPORT"]) sample_world)
     = Schema.mkWorld (Context.merge_cache_ttl (Context.build_context None) (Some "60"%string))
                      [Schema.ListHeroes None (VMem Locale "ENGLISH_US")].
Proof.
  split; [reflexivity|].
  apply (heroes_merges_list_ttl sample_members (list Schema.HeroShort) unit sample_iter
           sample_validate (sample_controllers [sample_ana] []) None (VMem Locale "ENGLISH_US")
           (Some [VMem Role "SUPPORT"]) sample_world None (VMem Locale "ENGLISH_US") [sample_ana]
           (Some "60"%string)); reflexivity.
Defined.

(** X9: when the list controller raises [e], [heroes] raises the same [e]; the
    call is recorded and the context is unchanged. *)
Theorem heroes_list_error (members : cls -> list (string * pyval))
  (Payload Hero : Type) (iter_payload : Payload -> result (list Payload))
  (short_validate : Payload -> result Schema.HeroShort)
  (process_request : list Schema.call -> Schema.call -> result (Payload * option string))
  (role : option pyval) (locale : pyval) (keys : option (list pyval)) (w : Schema.World)
  (r : option pyval) (loc : pyval) (e : exn)
  (Hr : Schema._convert_role members role = Ok r)
  (Hl : Schema._convert_locale members locale = Ok loc)
  (Hp : process_request (Schema.calls w) (Schema.ListHeroes r loc) = Err e) :
  Schema.heroes members Payload Hero iter_payload short_validate process_request
                role locale keys w
  = (Err e, Schema.mkWorld (Schema.context w) (Schema.calls w ++ [Schema.ListHeroes r loc])).
Proof.
  unfold Schema.heroes, Schema.mbind, Schema.lift, Schema._run_controller.
  rewrite Hr, Hl, Hp. reflexivity.
Qed.

Lemma heroes_list_error_witness :
  Schema.heroes sample_members nat unit (fun _ => Ok []) (fun _ => Err ValidationError)
    (fun _ _ => Err (DownstreamError 3)) (Some (VMem Role "TANK")) (VMem Locale "GERMAN") None
    sample_world
  = (Err (DownstreamError 3),
     Schema.mkWorld (Context.build_context None)
                    [Schema.ListHeroes (Some (VMem Role "TANK")) (VMem Locale "GERMAN")]).
Proof.
  apply (heroes_list_error sample_members nat unit (fun _ => Ok []) (fun _ => Err ValidationError)
           (fun _ _ => Err (DownstreamError 3)) (Some (VMem Role "TANK")) (VMem Locale "GERMAN")
           None sample_world (Some (VMem Role "TANK")) (VMem Locale "GERMAN")
           (DownstreamError 3)); reflexivity.
Defined.

(** X10: on a cache miss, when the detail controller returns but the payload
    fails [Hero] validation with [e], [_load_details] raises [e] after the
    downstream call: the call is recorded, its TTL is merged into the context,
    and the node is unchanged (nothing cached). *)
Theorem load_details_validation_error (members : cls -> list (string * pyval))
  (Payload Hero : Type) (hero_validate : Payload -> result Hero)
  (process_request : list Schema.call -> Schema.call -> result (Payload * option string))
  (self : Schema.HeroNode Hero) (locale ck hk loc : pyval) (w : Schema.World)
  (payload : Payload) (th : option string) (e : exn)
  (Hk : Schema.get_value members locale = Ok ck)
  (Hmiss : dict_get (Schema._details_cache Hero self) ck = None)
  (Hkey : Schema._enum_to_hero_key members (Schema.key Hero self) = Ok hk)
  (Hloc : Schema._convert_locale members locale = Ok loc)
  (Hp : process_request (Schema.calls w) (Schema.GetHero hk loc) = Ok (payload, th))
  (Hv : hero_validate payload = Err e) :
  Schema._load_details members Payload Hero hero_validate process_request self locale w
  = (Err e, self, Schema.mkWorld (Context.merge_cache_ttl (Schema.context w) th)
                                 (Schema.calls w ++ [Schema.GetHero hk loc])).
Proof.
  unfold Schema._load_details. rewrite Hk, Hmiss.
  unfold Schema.mbind, Schema.lift, Schema._run_controller. rewrite Hkey, Hloc, Hp, Hv.
  reflexivity.
Qed.

Lemma load_details_validation_error_witness :
  Schema._load_details sample_members (list Schema.HeroShort) Schema.HeroShort sample_validate
    (sample_controllers [] []) sample_node (VMem Locale "ENGLISH_US") sample_world
  = (Err ValidationError, sample_node,
     Schema.mkWorld (Context.merge_cache_ttl (Context.build_context None) (Some "30"%string))
                    [Schema.GetHero (VMem HeroKey "ANA") (VMem Locale "ENGLISH_US")]).
Proof.
  apply (load_details_validation_error sample_members (list Schema.HeroShort) Schema.HeroShort
           sample_validate (sample_controllers [] []) sample_node (VMem Locale "ENGLISH_US")
           (VStr "en-us") (VMem HeroKey "ANA") (VMem Locale "ENGLISH_US") sample_world []
           (Some "30"%string) ValidationError); reflexivity.
Defined.

(** X11: a successful [_load_details] keeps the node's key, name, portrait and
    role, caches the returned hero under the locale's value, and leaves every
    other locale's cache entry as it was. *)
Theorem load_details_success_local (members : cls -> list (string * pyval))
  (Payload Hero : Type) (hero_validate : Payload -> result Hero)
  (process_request : list Schema.call -> Schema.call -> result (Payload * option string))
  (self : Schema.HeroNode Hero) (locale ck : pyval) (w w1 : Schema.World) (h : Hero)
  (self1 : Schema.HeroNode Hero)
  (Hk : Schema.get_value members locale = Ok ck)
  (Hrun : Schema._load_details members Payload Hero hero_validate process_request self locale w
          = (Ok h, self1, w1)) :
  Schema.key Hero self1 = Schema.key Hero self /\ Schema.name Hero self1 = Schema.name Hero self
  /\ Schema.portrait Hero self1 = Schema.portrait Hero self
  /\ Schema.role Hero self1 = Schema.role Hero self
  /\ dict_get (Schema._details_cache Hero self1) ck = Some h
  /\ (forall k, py_eqb ck k = false ->
      dict_get (Schema._details_cache Hero self1) k = dict_get (Schema._details_cache Hero self) k).
Proof.
  exact (SchemaFacts.load_details_success members Payload Hero hero_validate process_request
           self locale ck w w1 h self1 Hk Hrun).
Qed.

Lemma load_details_success_local_witness :
  let self := Schema.mkHeroNode Schema.HeroShort (VMem HeroKey "ANA") "Ana" "p"
                (VMem Role "SUPPORT") [(VStr "de-de", sample_lucio)] in
  dict_get (Schema._details_cache Schema.HeroShort
     (Schema.mkHeroNode Schema.HeroShort (VMem HeroKey "ANA") "Ana" "p" (VMem Role "SUPPORT")
        [(VStr "de-de", sample_lucio); (VStr "en-us", sample_ana)])) (VStr "de-de")
  = dict_get (Schema._details_cache Schema.HeroShort self) (VStr "de-de").
Proof.
  apply (load_details_success_local sample_members (list Schema.HeroShort) Schema.HeroShort
           sample_validate (sample_controllers [] [sample_ana])
           (Schema.mkHeroNode Schema.HeroShort (VMem HeroKey "ANA") "Ana" "p"
              (VMem Role "SUPPORT") [(VStr "de-de", sample_lucio)])
           (VMem Locale "ENGLISH_US") (VStr "en-us") sample_world
           (Schema.mkWorld (Context.merge_cache_ttl (Context.build_context None) (Some "30"%string))
              [Schema.GetHero (VMem HeroKey "ANA") (VMem Locale "ENGLISH_US")])
           sample_ana
           (Schema.mkHeroNode Schema.HeroShort (VMem HeroKey "ANA") "Ana" "p" (VMem Role "SUPPORT")
              [(VStr "de-de", sample_lucio); (VStr "en-us", sample_ana)]));
    reflexivity.
Defined.

(** X12: a failing [_load_details] never changes the node (nothing is cached,
    so a later call tries again), and it made at most one downstream call: the
    world is either untouched or has exactly one more [GetHero] call. *)
Theorem load_details_failure_keeps_node (members : cls -> list (string * pyval))
  (Payload Hero : Type) (hero_validate : Payload -> result Hero)
  (process_request : list Schema.call -> Schema.call -> result (Payload * option string))
  (self : Schema.HeroNode Hero) (locale : pyval) (w w1 : Schema.World) (e : exn)
  (self1 : Schema.HeroNode Hero)
  (Hrun : Schema._load_details members Payload Hero hero_validate process_request self locale w
          = (Err e, self1, w1)) :
  self1 = self
  /\ (w1 = w \/ exists hk loc, Schema.calls w1 = Schema.calls w ++ [Schema.GetHero hk loc]).
Proof.
  exact (SchemaFacts.load_details_failure members Payload Hero hero_validate process_request
           self locale w w1 e self1 Hrun).
Qed.

Lemma load_details_failure_keeps_node_witness :
  sample_node = sample_node
  /\ (Schema.mkWorld (Context.merge_cache_ttl (Context.build_context None) (Some "30"%string))
        [Schema.GetHero (VMem HeroKey "ANA") (VMem Locale "ENGLISH_US")] = sample_world
      \/ exists hk loc,
        Schema.calls (Schema.mkWorld (Context.merge_cache_ttl (Context.build_context None)
                                        (Some "30"%string))
                        [Schema.GetHero (VMem HeroKey "ANA") (VMem Locale "ENGLISH_US")])
        = Schema.calls sample_world ++ [Schema.GetHero hk loc]).
Proof.
  apply (load_details_failure_keeps_node sample_members (list Schema.HeroShort) Schema.HeroShort
           sample_validate (sample_controllers [] []) sample_node (VMem Locale "ENGLISH_US")
           sample_world
           (Schema.mkWorld (Context.merge_cache_ttl (Context.build_context None) (Some "30"%string))
              [Schema.GetHero (VMem HeroKey "ANA") (VMem Locale "ENGLISH_US")])
           ValidationError sample_node).
  reflexivity.
Defined.
